(** * weatherApp: a shallow embedding of [main.py]

    The program is a Tk front end over one HTTP request.  Its logic is
    - [WeatherAPI.get_weather]: build the URL, GET it, wrap transport
      failures in [WeatherAPIError];
    - [WeatherData]: pick five fields out of the JSON payload and convert
      the temperature from Kelvin to Celsius;
    - [WeatherDisplay.update_display]: write the five fields into labels;
    - [WeatherApp.__fetch_weather]: the button callback that chains the
      three and reports [WeatherAPIError] and [ValueError] on the console.

    Python values are modelled by [pyval], Python floats by Rocq's binary64
    primitive floats, exceptions by the [result] type, and the mutable parts
    (the label texts, the console, the requests sent) by a state monad. *)

From Stdlib Require Import ZArith Ascii String List Bool Lia.
From Stdlib Require Import Floats.PrimFloat Floats.SpecFloat Floats.FloatOps.
From stdpp Require Import base option list gmap strings pretty.

Set Warnings "-inexact-float,-register-all".
Local Open Scope string_scope.
Local Open Scope Z_scope.

(** ** Exceptions *)

(** The exception classes the program can meet: the builtin ones raised by
    subscripting and arithmetic, the program's own [WeatherAPIError], and
    the [requests] family rooted at [RequestException]. *)
Inductive exn_class : Set :=
| Exception
| ValueError
| LookupError
| KeyError
| IndexError
| TypeError
| ArithmeticError
| OverflowError
| WeatherAPIError
| RequestException
| HTTPError
| ConnectionError
| Timeout
| JSONDecodeError.

#[global] Instance exn_class_eq_dec : EqDecision exn_class.
Proof. solve_decision. Defined.

(** Method resolution order: the class itself followed by its ancestors.
    [requests.JSONDecodeError] derives from both [RequestException] and the
    builtin [ValueError]. *)
Definition mro (c : exn_class) : list exn_class :=
  match c with
  | Exception => [Exception]
  | ValueError => [ValueError; Exception]
  | LookupError => [LookupError; Exception]
  | KeyError => [KeyError; LookupError; Exception]
  | IndexError => [IndexError; LookupError; Exception]
  | TypeError => [TypeError; Exception]
  | ArithmeticError => [ArithmeticError; Exception]
  | OverflowError => [OverflowError; ArithmeticError; Exception]
  | WeatherAPIError => [WeatherAPIError; Exception]
  | RequestException => [RequestException; Exception]
  | HTTPError => [HTTPError; RequestException; Exception]
  | ConnectionError => [ConnectionError; RequestException; Exception]
  | Timeout => [Timeout; RequestException; Exception]
  | JSONDecodeError =>
      [JSONDecodeError; RequestException; ValueError; Exception]
  end.

Definition issubclass (c base : exn_class) : bool :=
  bool_decide (base ∈ mro c).

(** An exception object: its class and the text [str(e)] gives. *)
Record exn := mk_exn { exn_class_of : exn_class; exn_str : string }.

Definition isinstance (e : exn) (base : exn_class) : bool :=
  issubclass (exn_class_of e) base.

(** ** The exception monad of pure code *)

Inductive result (A : Type) : Type :=
| Return (a : A)
| Raise (e : exn).
Arguments Return {A} a.
Arguments Raise {A} e.

#[global] Instance result_ret : MRet result := fun A a => Return a.
#[global] Instance result_bind : MBind result := fun A B f m =>
  match m with
  | Return a => f a
  | Raise e => Raise e
  end.

(** ** Python values *)

(** What [response.json()] can return: JSON objects become dicts keyed by
    strings, arrays become lists, numbers become [int] or [float]. *)
Inductive pyval : Type :=
| PyNone
| PyBool (b : bool)
| PyInt (n : Z)
| PyFloat (x : float)
| PyStr (s : string)
| PyList (l : list pyval)
| PyDict (d : gmap string pyval).

Definition type_name (v : pyval) : string :=
  match v with
  | PyNone => "NoneType"
  | PyBool _ => "bool"
  | PyInt _ => "int"
  | PyFloat _ => "float"
  | PyStr _ => "str"
  | PyList _ => "list"
  | PyDict _ => "dict"
  end.

(** Strings are kept as their UTF-8 bytes; a character is a lead byte
    followed by its continuation bytes (those of the form 10xxxxxx). *)
Definition is_continuation (c : ascii) : bool :=
  let n := N_of_ascii c in (128 <=? n)%N && (n <? 192)%N.

Fixpoint take_continuation (s : string) : string * string :=
  match s with
  | String c s' =>
      if is_continuation c
      then let '(h, t) := take_continuation s' in (String c h, t)
      else (EmptyString, s)
  | EmptyString => (EmptyString, EmptyString)
  end.

Fixpoint chars_fuel (fuel : nat) (s : string) : list string :=
  match fuel, s with
  | S fuel', String c s' =>
      let '(h, t) := take_continuation s' in
      String c h :: chars_fuel fuel' t
  | _, _ => []
  end.

(** The characters of a string, one string per code point. *)
Definition chars (s : string) : list string :=
  chars_fuel (String.length s) s.

(** Python's index normalisation: a negative index counts from the end. *)
Definition index_of {A} (l : list A) (i : Z) : option A :=
  let n := Z.of_nat (length l) in
  let j := if i <? 0 then i + n else i in
  if (0 <=? j) && (j <? n) then l !! Z.to_nat j else None.

(** [v[key]] for a string key.  The messages are those of CPython 3.12; the
    keys the program uses are plain words, whose [repr] is the word between
    quotes. *)
Definition getitem_str (v : pyval) (key : string) : result pyval :=
  match v with
  | PyDict d =>
      match d !! key with
      | Some x => Return x
      | None => Raise (mk_exn KeyError ("'" +:+ key +:+ "'"))
      end
  | PyList _ =>
      Raise (mk_exn TypeError "list indices must be integers or slices, not str")
  | PyStr _ =>
      Raise (mk_exn TypeError "string indices must be integers, not 'str'")
  | _ =>
      Raise (mk_exn TypeError
               ("'" +:+ type_name v +:+ "' object is not subscriptable"))
  end.

(** [v[i]] for an integer index.  A dict that came out of JSON has string
    keys only, so an integer key is never found. *)
Definition getitem_int (v : pyval) (i : Z) : result pyval :=
  match v with
  | PyList l =>
      match index_of l i with
      | Some x => Return x
      | None => Raise (mk_exn IndexError "list index out of range")
      end
  | PyStr s =>
      match index_of (chars s) i with
      | Some c => Return (PyStr c)
      | None => Raise (mk_exn IndexError "string index out of range")
      end
  | PyDict _ => Raise (mk_exn KeyError (pretty i))
  | _ =>
      Raise (mk_exn TypeError
               ("'" +:+ type_name v +:+ "' object is not subscriptable"))
  end.

(** ** Python floats *)

(** [float(n)] for an int: the nearest double, ties to even; CPython raises
    [OverflowError] when that rounding leaves the finite range. *)
Definition float_of_int (n : Z) : result float :=
  let x := SF2Prim (binary_normalize prec emax n 0 false) in
  if is_infinity x
  then Raise (mk_exn OverflowError "int too large to convert to float")
  else Return x.

(** The operand of a float subtraction: a float is taken as it is, an int
    (or a bool, which is an int) is converted. *)
Definition as_float (v : pyval) : option (result float) :=
  match v with
  | PyFloat x => Some (Return x)
  | PyInt n => Some (float_of_int n)
  | PyBool b => Some (float_of_int (if b then 1 else 0))
  | _ => None
  end.

(** [v - y] for a float [y]. *)
Definition sub_float (v : pyval) (y : float) : result float :=
  match as_float v with
  | Some r => x ← r; Return (x - y)%float
  | None =>
      Raise (mk_exn TypeError
               ("unsupported operand type(s) for -: '" +:+ type_name v
                +:+ "' and 'float'"))
  end.

(** The integer nearest to [num / den] ([den] positive), ties to even. *)
Definition div_half_even (num den : Z) : Z :=
  let q := num / den in
  match 2 * (num mod den) ?= den with
  | Lt => q
  | Gt => q + 1
  | Eq => if Z.even q then q else q + 1
  end.

(** [round(x, ndigits)] for a float and [0 <= ndigits]: CPython prints the
    exact value of [x] with [ndigits] decimals, correctly rounded with ties
    to even, and reads the decimal back as the nearest double.  Infinities
    and NaN round to themselves, and so does everything once [ndigits]
    exceeds 323. *)
Definition round (x : float) (ndigits : N) : float :=
  match Prim2SF x with
  | S754_finite s m e =>
      if (323 <? ndigits)%N then x
      else
        let scale := 10 ^ Z.of_N ndigits in
        let n := div_half_even (Zpos m * scale * 2 ^ Z.max e 0)
                               (2 ^ Z.max (- e) 0) in
        match n with
        | Zpos p =>
            SF2Prim (SFdiv prec emax (S754_finite s p 0)
                                     (S754_finite false (Z.to_pos scale) 0))
        | _ => SF2Prim (S754_zero s)
        end
  | _ => x
  end.

(** ** [class WeatherData] *)

Module WeatherData.

(** The private attributes of an instance, under their mangled names. *)
Record t := mk {
  _WeatherData__raw_data : pyval;
  _WeatherData__climate : pyval;
  _WeatherData__description : pyval;
  _WeatherData__temperature : float;
  _WeatherData__pressure : pyval;
  _WeatherData__humidity : pyval
}.

(** [__process_data], statement by statement; the first subscript that
    fails decides the exception. *)
Definition __process_data (raw_data : pyval) : result t :=
  weather ← (ws ← getitem_str raw_data "weather"; getitem_int ws 0);
  main_data ← getitem_str raw_data "main";
  climate ← getitem_str weather "main";
  description ← getitem_str weather "description";
  temperature ← (temp ← getitem_str main_data "temp";
                 sub_float temp 273.15); (* Convert to Celsius *)
  pressure ← getitem_str main_data "pressure";
  humidity ← getitem_str main_data "humidity";
  Return (mk raw_data climate description temperature pressure humidity).

Definition __init__ (raw_data : pyval) : result t :=
  __process_data raw_data.

Definition climate (self : t) : pyval := _WeatherData__climate self.
Definition description (self : t) : pyval := _WeatherData__description self.
Definition temperature (self : t) : float :=
  round (_WeatherData__temperature self) 1.
Definition pressure (self : t) : pyval := _WeatherData__pressure self.
Definition humidity (self : t) : pyval := _WeatherData__humidity self.

End WeatherData.

(** ** Widgets *)

(** A widget as the program creates it: its class, the [text] it is created
    with, the size and weight of its font (the family is always Poppins),
    the [values] of a combobox, and the rectangle [place] gives it, in
    pixels from the top left corner of the window. *)
Inductive widget_class : Set := Label | Combobox | Button.

Record Widget := mk_widget {
  widget_class_of : widget_class;
  text : string;
  font_size : Z;
  font_bold : bool;
  values : list string;
  x : Z;
  y : Z;
  height : Z;
  width : Z
}.

(** [Label(master, text=..., font=('Poppins', 20))] placed at a rectangle. *)
Definition label20 (text : string) (x y height width : Z) : Widget :=
  mk_widget Label text 20 false [] x y height width.

(** ** [class WeatherDisplay] *)

(** [format(v, '')], the conversion an f-string applies to a value; it is a
    builtin of the interpreter and enters as a parameter. *)
Class Format := format : pyval → string.

Module WeatherDisplay.

(** The [text] option of the five value labels (the caption labels are
    written once at creation and never again). *)
Record t := mk {
  climate_value : pyval;
  desc_value : pyval;
  temp_value : pyval;
  pressure_value : pyval;
  humidity_value : pyval
}.

(** [__create_labels]: every value label starts with [text=""]. *)
Definition __init__ : t :=
  mk (PyStr "") (PyStr "") (PyStr "") (PyStr "") (PyStr "").

(** [__create_labels] as the widgets it creates, in creation order: for
    each of the five rows the caption label, then the value label. *)
Definition __create_labels : list Widget :=
  [ label20 "Weather Climate" 25 270 50 200;
    label20 "" 250 270 50 200;
    label20 "Weather Description" 25 330 50 200;
    label20 "" 250 330 50 200;
    label20 "Temperature" 25 390 50 200;
    label20 "" 250 390 50 200;
    label20 "Pressure" 25 450 50 200;
    label20 "" 250 450 50 200;
    label20 "Humidity" 25 510 50 200;
    label20 "" 250 510 50 200 ].

Definition config_climate_value (text : pyval) (self : t) : t :=
  mk text (desc_value self) (temp_value self) (pressure_value self)
     (humidity_value self).
Definition config_desc_value (text : pyval) (self : t) : t :=
  mk (climate_value self) text (temp_value self) (pressure_value self)
     (humidity_value self).
Definition config_temp_value (text : pyval) (self : t) : t :=
  mk (climate_value self) (desc_value self) text (pressure_value self)
     (humidity_value self).
Definition config_pressure_value (text : pyval) (self : t) : t :=
  mk (climate_value self) (desc_value self) (temp_value self) text
     (humidity_value self).
Definition config_humidity_value (text : pyval) (self : t) : t :=
  mk (climate_value self) (desc_value self) (temp_value self)
     (pressure_value self) text.

Definition update_display `{!Format} (self : t)
    (weather_data : WeatherData.t) : t :=
  let self := config_climate_value (WeatherData.climate weather_data) self in
  let self := config_desc_value (WeatherData.description weather_data) self in
  let self :=
    config_temp_value
      (PyStr (format (PyFloat (WeatherData.temperature weather_data))
              +:+ "°C")) self in
  let self :=
    config_pressure_value
      (PyStr (format (WeatherData.pressure weather_data) +:+ " hPa")) self in
  config_humidity_value
    (PyStr (format (WeatherData.humidity weather_data) +:+ "%")) self.

End WeatherDisplay.

(** ** The state the callback runs in *)

(** What [requests.get(url)] hands back: the outcome of the two methods the
    program calls on it. *)
Record Response := mk_response {
  raise_for_status : result unit;
  json : result pyval
}.

(** The transport: the outcome of one [requests.get], which may depend on
    the requests made before it.  It either raises or returns a response. *)
Class Requests := requests_get : list string → string → result Response.

(** The Tk side (the [StringVar] of the dropdown and the label texts), the
    console, and the URLs handed to [requests.get], oldest first. *)
Record World := mk_world {
  city_name : string;
  display : WeatherDisplay.t;
  stdout : list string;
  requests_log : list string
}.

Definition set_display (d : WeatherDisplay.t) (w : World) : World :=
  mk_world (city_name w) d (stdout w) (requests_log w).
Definition write_stdout (line : string) (w : World) : World :=
  mk_world (city_name w) (display w) (stdout w ++ [line]) (requests_log w).
Definition log_request (url : string) (w : World) : World :=
  mk_world (city_name w) (display w) (stdout w) (requests_log w ++ [url]).

Definition M (A : Type) : Type := World → result A * World.

#[global] Instance M_ret : MRet M := fun A a w => (Return a, w).
#[global] Instance M_bind : MBind M := fun A B f m w =>
  match m w with
  | (Return a, w') => f a w'
  | (Raise e, w') => (Raise e, w')
  end.

Definition raise {A} (e : exn) : M A := fun w => (Raise e, w).
Definition lift {A} (r : result A) : M A := fun w => (r, w).

(** [except (C1, ..., Cn) as e: handler]. *)
Definition except {A} (classes : list exn_class) (handler : exn → M A)
    (e : exn) : option (M A) :=
  if existsb (isinstance e) classes then Some (handler e) else None.

(** [try: body] followed by one [except] clause: the state reached when the
    exception was raised is the one the handler starts from. *)
Definition try_except {A} (body : M A) (clause : exn → option (M A)) : M A :=
  fun w =>
    match body w with
    | (Return a, w') => (Return a, w')
    | (Raise e, w') =>
        match clause e with
        | Some handler => handler w'
        | None => (Raise e, w')
        end
    end.

Definition print (line : string) : M unit := fun w =>
  (Return tt, write_stdout line w).

Definition StringVar_get : M string := fun w => (Return (city_name w), w).

Definition get `{!Requests} (url : string) : M Response := fun w =>
  (requests_get (requests_log w) url, log_request url w).

Definition modify_display (f : WeatherDisplay.t → WeatherDisplay.t) : M unit :=
  fun w => (Return tt, set_display (f (display w)) w).

(** ** [class WeatherAPI] *)

Module WeatherAPI.

Record t := mk {
  _WeatherAPI__api_key : string;
  _WeatherAPI__base_url : string
}.

Definition __init__ (api_key : string) : t :=
  mk api_key "https://api.openweathermap.org/data/2.5/weather".

(** The f-string of [get_weather]: both values are [str], which an
    f-string inserts as they are. *)
Definition request_url (self : t) (city : string) : string :=
  _WeatherAPI__base_url self +:+ "?q=" +:+ city
  +:+ "&appid=" +:+ _WeatherAPI__api_key self.

Definition get_weather `{!Requests} (self : t) (city : string) : M pyval :=
  try_except
    (let url := request_url self city in
     response ← get url;
     lift (raise_for_status response);;
     lift (json response))
    (except [RequestException] (fun e =>
       raise (mk_exn WeatherAPIError
                ("Failed to fetch weather data: " +:+ exn_str e)))).

End WeatherAPI.

(** ** [class WeatherApp] *)

Module WeatherApp.

Record t := mk { _WeatherApp__api : WeatherAPI.t }.

Definition __init__ : t := mk (WeatherAPI.__init__ "").

(** The world right after [__init__]: nothing selected, empty labels. *)
Definition initial_world : World :=
  mk_world "" WeatherDisplay.__init__ [] [].

Definition INDIAN_STATES : list string :=
  [ "Andhra Pradesh"; "Arunachal Pradesh"; "Assam"; "Bihar"; "Chhattisgarh";
    "Goa"; "Gujarat"; "Haryana"; "Himachal Pradesh"; "Jammu and Kashmir";
    "Jharkhand"; "Karnataka"; "Kerala"; "Madhya Pradesh"; "Maharashtra";
    "Manipur"; "Meghalaya"; "Mizoram"; "Nagaland"; "Odisha"; "Punjab";
    "Rajasthan"; "Sikkim"; "Tamil Nadu"; "Telangana"; "Tripura";
    "Uttar Pradesh"; "Uttarakhand"; "West Bengal";
    "Andaman and Nicobar Islands";
    "Chandigarh"; "Dadra and Nagar Haveli"; "Daman and Diu"; "Lakshadweep";
    "National Capital Territory of Delhi"; "Puducherry" ].

(** [__setup_window]: the title, the background and the size
    ([geometry('500x600')] is width x height). *)
Record Window := mk_window {
  window_title : string;
  window_bg : string;
  window_width : Z;
  window_height : Z
}.

Definition __setup_window : Window := mk_window "Weather App" "black" 500 600.

Definition __create_title : Widget :=
  mk_widget Label "Weather App" 30 true [] 25 25 50 450.

Definition __create_dropdown : Widget :=
  mk_widget Combobox "" 30 false INDIAN_STATES 25 130 50 450.

Definition __create_button : Widget :=
  mk_widget Button "Done" 30 false [] 200 200 50 100.

(** [__create_widgets]: the title, the dropdown, the button, then the ten
    labels of the display. *)
Definition __create_widgets : list Widget :=
  __create_title :: __create_dropdown :: __create_button
  :: WeatherDisplay.__create_labels.

Definition __show_error (message : string) : M unit :=
  print ("Error: " +:+ message).

(** The [try] block of [__fetch_weather]. *)
Definition __fetch_weather_try `{!Requests, !Format} (self : t) : M unit :=
  city ← StringVar_get;
  (if String.eqb city "" then
     raise (mk_exn ValueError "Please select a city")
   else mret tt);;
  raw_data ← WeatherAPI.get_weather (_WeatherApp__api self) city;
  weather_data ← lift (WeatherData.__init__ raw_data);
  modify_display (fun d => WeatherDisplay.update_display d weather_data).

Definition __fetch_weather `{!Requests, !Format} (self : t) : M unit :=
  try_except (__fetch_weather_try self)
    (except [WeatherAPIError; ValueError] (fun e =>
       __show_error (exn_str e))).

End WeatherApp.

(** * Vocabulary of the properties *)

(** ** Paths into a payload *)

(** [raw["main"][key]] and [raw["weather"][0][key]], the paths the data
    model is described with. *)
Definition main_field (raw : pyval) (key : string) : result pyval :=
  main_data ← getitem_str raw "main"; getitem_str main_data key.

Definition weather0_field (raw : pyval) (key : string) : result pyval :=
  ws ← getitem_str raw "weather";
  weather ← getitem_int ws 0;
  getitem_str weather key.

(** The classes of the exceptions subscripting and subtraction raise. *)
Definition builtin_errors : list exn_class :=
  [KeyError; IndexError; TypeError; OverflowError].


(** The data model's ranges: an integer above zero, an integer percentage. *)
Definition pressure_in_range (v : pyval) : bool :=
  match v with
  | PyInt n => 0 <? n
  | _ => false
  end.

Definition humidity_in_range (v : pyval) : bool :=
  match v with
  | PyInt n => (0 <=? n) && (n <=? 100)
  | _ => false
  end.

(** ** Outcomes of the transport *)

(** What the three calls inside the [try] of [get_weather] come to. *)
Definition http_outcome `{!Requests} (log : list string) (url : string)
    : result pyval :=
  response ← requests_get log url;
  raise_for_status response;;
  json response.

(** The [except requests.RequestException] clause on an outcome. *)
Definition wrap_failure (r : result pyval) : result pyval :=
  match r with
  | Return v => Return v
  | Raise e =>
      if isinstance e RequestException
      then Raise (mk_exn WeatherAPIError
                    ("Failed to fetch weather data: " +:+ exn_str e))
      else Raise e
  end.


(** A transport-level failure: [requests.get] itself raises (no address, no
    connection), or [raise_for_status] raises on the status of the response. *)
Definition transport_fails `{!Requests} (log : list string) (url : string)
    (e : exn) : Prop :=
  requests_get log url = Raise e ∨
  ∃ response, requests_get log url = Return response ∧
              raise_for_status response = Raise e.

(** A stubbed transport answers by the URL alone. *)
Definition stateless (R : Requests) : Prop :=
  ∀ log log' url, @requests_get R log url = @requests_get R log' url.

(** ** Sample inputs *)

(** The payload of the end-to-end scenario. *)
Definition clouds_payload : pyval :=
  PyDict {[ "weather" :=
              PyList [PyDict {[ "main" := PyStr "Clouds";
                                "description" := PyStr "overcast clouds" ]}];
            "main" :=
              PyDict {[ "temp" := PyFloat 298.15;
                        "pressure" := PyInt 1012;
                        "humidity" := PyInt 77 ]} ]}.

Definition main_of (temp pressure humidity : pyval) : pyval :=
  PyDict {[ "temp" := temp; "pressure" := pressure; "humidity" := humidity ]}.

(** The same weather at the freezing point. *)
Definition freezing_payload : pyval :=
  PyDict {[ "weather" :=
              PyList [PyDict {[ "main" := PyStr "Snow";
                                "description" := PyStr "light snow" ]}];
            "main" := main_of (PyFloat 273.15) (PyInt 1020) (PyInt 90) ]}.

(** A payload without [weather], and one whose [weather] is empty. *)
Definition no_weather_payload : pyval :=
  PyDict {[ "main" := main_of (PyFloat 298.15) (PyInt 1012) (PyInt 77) ]}.

Definition empty_weather_payload : pyval :=
  PyDict {[ "weather" := PyList [];
            "main" := main_of (PyFloat 298.15) (PyInt 1012) (PyInt 77) ]}.

(** A payload whose pressure and humidity lie outside the ranges. *)
Definition out_of_range_payload : pyval :=
  PyDict {[ "weather" :=
              PyList [PyDict {[ "main" := PyStr "Clouds";
                                "description" := PyStr "overcast clouds" ]}];
            "main" := main_of (PyFloat 298.15) (PyInt (-1)) (PyInt 150) ]}.

(** A transport that answers every request with status 200 and [raw]. *)
Definition serve (raw : pyval) : Requests :=
  fun _ _ => Return (mk_response (Return tt) (Return raw)).

(** A transport on which every request raises [e]. *)
Definition refuse (e : exn) : Requests := fun _ _ => Raise e.

Definition connection_refused : exn :=
  mk_exn ConnectionError "Connection refused".

(** A stand-in for [format]: strings as they are, ints in decimal, anything
    else by the name of its type. *)
Definition sample_format : Format := fun v =>
  match v with
  | PyStr s => s
  | PyInt n => pretty n
  | _ => "<" +:+ type_name v +:+ ">"
  end.

(** The world in which [city] is selected and nothing has happened yet. *)
Definition selected (city : string) : World :=
  mk_world city WeatherDisplay.__init__ [] [].

(** ** Further vocabulary *)

(** A JSON object, as opposed to an array, a string, a number or [null]. *)
Definition is_object (v : pyval) : bool :=
  match v with
  | PyDict _ => true
  | _ => false
  end.

(** The rectangle of a widget lies inside a window of the given size. *)
Definition inside (win_width win_height : Z) (a : Widget) : bool :=
  (0 <=? x a) && (x a + width a <=? win_width) &&
  (0 <=? y a) && (y a + height a <=? win_height).

(** Two rectangles share no pixel: one ends before the other starts, along
    one of the two axes. *)
Definition apart (a b : Widget) : bool :=
  (x a + width a <=? x b) || (x b + width b <=? x a) ||
  (y a + height a <=? y b) || (y b + height b <=? y a).

Fixpoint pairwise_apart (l : list Widget) : bool :=
  match l with
  | [] => true
  | a :: l' => forallb (apart a) l' && pairwise_apart l'
  end.

(** The end-to-end payload as the service really sends it: more keys, and a
    second entry in [weather]. *)
Definition verbose_payload : pyval :=
  PyDict {[ "weather" :=
              PyList [PyDict {[ "id" := PyInt 804;
                                "main" := PyStr "Clouds";
                                "description" := PyStr "overcast clouds";
                                "icon" := PyStr "04d" ]};
                      PyDict {[ "id" := PyInt 701;
                                "main" := PyStr "Mist";
                                "description" := PyStr "mist" ]}];
            "main" :=
              PyDict {[ "temp" := PyFloat 298.15;
                        "feels_like" := PyFloat 298.4;
                        "pressure" := PyInt 1012;
                        "humidity" := PyInt 77 ]};
            "name" := PyStr "Goa";
            "cod" := PyInt 200 ]}.

(** A payload whose temperature came as text. *)
Definition text_temp_payload : pyval :=
  PyDict {[ "weather" :=
              PyList [PyDict {[ "main" := PyStr "Clouds";
                                "description" := PyStr "overcast clouds" ]}];
            "main" := main_of (PyStr "298.15") (PyInt 1012) (PyInt 77) ]}.

(** A transport whose responses have a good status and a body that is not
    JSON: [json()] raises [requests.JSONDecodeError]. *)
Definition not_json : exn :=
  mk_exn JSONDecodeError "Expecting value: line 1 column 1 (char 0)".

Definition garbled : Requests :=
  fun _ _ => Return (mk_response (Return tt) (Raise not_json)).

(** An error of the transport that is no [RequestException]. *)
Definition bad_value : exn := mk_exn ValueError "Invalid header value".

(** * Properties *)

(** ** The class hierarchy *)

Lemma lookup_errors_not_handled c :
  c ∈ [KeyError; IndexError; TypeError; OverflowError] →
  issubclass c WeatherAPIError = false ∧ issubclass c ValueError = false.
Proof.
  rewrite !elem_of_cons, elem_of_nil.
  intros [-> | [-> | [-> | [-> | []]]]]; split; reflexivity.
Qed.

(** ** Reading a payload *)

Lemma bind_Return {A B} (m : result A) (f : A → result B) (b : B) :
  m ≫= f = Return b → ∃ a, m = Return a ∧ f a = Return b.
Proof. destruct m as [a | e]; [eauto | discriminate]. Qed.

Lemma bind_Raise {A B} (m : result A) (f : A → result B) (e : exn) :
  m ≫= f = Raise e → m = Raise e ∨ ∃ a, m = Return a ∧ f a = Raise e.
Proof. destruct m as [a | e']; [eauto | intros [= ->]; auto]. Qed.

Lemma sub_float_Return v y z :
  sub_float v y = Return z →
  ∃ x, as_float v = Some (Return x) ∧ z = (x - y)%float.
Proof.
  unfold sub_float. destruct (as_float v) as [[x | e] |]; try discriminate.
  intros [= <-]. eauto.
Qed.

Lemma getitem_str_Raise v key e :
  getitem_str v key = Raise e → exn_class_of e ∈ builtin_errors.
Proof.
  unfold builtin_errors.
  destruct v; simpl; try (intros [= <-]; simpl; set_solver).
  destruct (d !! key); [discriminate | intros [= <-]; simpl; set_solver].
Qed.

Lemma getitem_int_Raise v i e :
  getitem_int v i = Raise e → exn_class_of e ∈ builtin_errors.
Proof.
  unfold builtin_errors.
  destruct v; simpl; try (intros [= <-]; simpl; set_solver).
  - destruct (index_of (chars s) i); [discriminate | intros [= <-]; simpl; set_solver].
  - destruct (index_of l i); [discriminate | intros [= <-]; simpl; set_solver].
Qed.

Lemma sub_float_Raise v y e :
  sub_float v y = Raise e → exn_class_of e ∈ builtin_errors.
Proof.
  unfold builtin_errors, sub_float, as_float, float_of_int.
  destruct v; simpl; try (intros [= <-]; simpl; set_solver).
  - destruct (is_infinity _); simpl; [intros [= <-]; simpl; set_solver | discriminate].
  - destruct (is_infinity _); simpl; [intros [= <-]; simpl; set_solver | discriminate].
Qed.

(** ** Record construction *)

Module WeatherDataFacts.
Import WeatherData.

(** A record exists exactly when the five paths can be read and the
    temperature converts; its attributes are then the values read. *)
Lemma init_Return_fields raw r :
  __init__ raw = Return r →
  _WeatherData__raw_data r = raw ∧
  weather0_field raw "main" = Return (climate r) ∧
  weather0_field raw "description" = Return (description r) ∧
  (∃ temp x, main_field raw "temp" = Return temp ∧
             as_float temp = Some (Return x) ∧
             _WeatherData__temperature r = (x - 273.15)%float) ∧
  main_field raw "pressure" = Return (pressure r) ∧
  main_field raw "humidity" = Return (humidity r).
Proof.
  unfold __init__, __process_data, weather0_field, main_field.
  intros H.
  apply bind_Return in H as (weather & Hw & H).
  apply bind_Return in Hw as (ws & Hws & Hw0).
  apply bind_Return in H as (main_data & Hm & H).
  apply bind_Return in H as (c & Hc & H).
  apply bind_Return in H as (dsc & Hd & H).
  apply bind_Return in H as (z & Ht & H).
  apply bind_Return in Ht as (temp & Htemp & Hsub).
  apply bind_Return in H as (p & Hp & H).
  apply bind_Return in H as (h & Hh & H).
  injection H as <-.
  apply sub_float_Return in Hsub as (x & Hx & ->).
  rewrite Hws, Hm. simpl. rewrite Hw0. simpl.
  repeat split; try assumption.
  exists temp, x. auto.
Qed.

Lemma init_total raw c dsc temp x p h :
  weather0_field raw "main" = Return c →
  weather0_field raw "description" = Return dsc →
  main_field raw "temp" = Return temp →
  as_float temp = Some (Return x) →
  main_field raw "pressure" = Return p →
  main_field raw "humidity" = Return h →
  __init__ raw = Return (mk raw c dsc (x - 273.15)%float p h).
Proof.
  unfold __init__, __process_data, weather0_field, main_field, sub_float.
  intros Hc Hd Ht Hx Hp Hh.
  apply bind_Return in Hc as (ws & Hws & Hc).
  apply bind_Return in Hc as (w & Hw & Hc).
  apply bind_Return in Ht as (m & Hm & Ht).
  rewrite Hws, Hm in *. simpl in *. rewrite Hw in *. simpl in *.
  rewrite Hc, Hd. simpl. rewrite Ht. simpl. rewrite Hx. simpl.
  rewrite Hp. simpl. rewrite Hh. reflexivity.
Qed.

(** Construction raises nothing but the builtin lookup, type and overflow
    errors. *)
Lemma init_Raise raw e :
  __init__ raw = Raise e → exn_class_of e ∈ builtin_errors.
Proof.
  unfold __init__, __process_data.
  intros H.
  repeat match type of H with
  | _ ≫= _ = Raise _ =>
      apply bind_Raise in H as [H | (? & ? & H)]
  end;
  repeat match goal with
  | H : _ ≫= _ = Raise _ |- _ =>
      apply bind_Raise in H as [H | (? & ? & H)]
  end;
  eauto using getitem_str_Raise, getitem_int_Raise, sub_float_Raise.
  discriminate.
Qed.

End WeatherDataFacts.

(** ** The fetch *)

Section Flow.
Context `{!Requests, !Format}.

Lemma get_weather_unfold (self : WeatherAPI.t) (city : string) (w : World) :
  let url := WeatherAPI.request_url self city in
  WeatherAPI.get_weather self city w =
    (wrap_failure (http_outcome (requests_log w) url), log_request url w).
Proof.
  unfold WeatherAPI.get_weather, http_outcome, wrap_failure, try_except,
    except, get, lift, raise, mbind, M_bind, result_bind.
  simpl.
  destruct (requests_get _ _) as [[rfs js] | e]; simpl.
  - destruct rfs as [[] | e]; simpl.
    + destruct js as [v | e]; simpl; [reflexivity |].
      rewrite orb_false_r. destruct (isinstance e RequestException); reflexivity.
    + rewrite orb_false_r. destruct (isinstance e RequestException); reflexivity.
  - rewrite orb_false_r. destruct (isinstance e RequestException); reflexivity.
Qed.

(** The [try] block of the callback, outcome by outcome. *)
Lemma fetch_weather_try_unfold (self : WeatherApp.t) (w : World) :
  WeatherApp.__fetch_weather_try self w =
    if String.eqb (city_name w) "" then
      (Raise (mk_exn ValueError "Please select a city"), w)
    else
      match WeatherAPI.get_weather (WeatherApp._WeatherApp__api self)
              (city_name w) w with
      | (Raise e, w1) => (Raise e, w1)
      | (Return raw_data, w1) =>
          match WeatherData.__init__ raw_data with
          | Raise e => (Raise e, w1)
          | Return weather_data =>
              (Return tt,
               set_display
                 (WeatherDisplay.update_display (display w1) weather_data)
                 w1)
          end
      end.
Proof.
  unfold WeatherApp.__fetch_weather_try, StringVar_get, modify_display, lift,
    raise, mbind, mret, M_bind, M_ret.
  destruct (String.eqb (city_name w) ""); [reflexivity |].
  destruct (WeatherAPI.get_weather _ _ w) as [[raw | e] w1]; [| reflexivity].
  destruct (WeatherData.__init__ raw); reflexivity.
Qed.

(** The [try] block never leaves the labels half written: an exception
    means they were not touched. *)
Lemma fetch_weather_try_Raise (self : WeatherApp.t) (w w1 : World) (e : exn) :
  WeatherApp.__fetch_weather_try self w = (Raise e, w1) →
  display w1 = display w ∧ stdout w1 = stdout w ∧ city_name w1 = city_name w.
Proof.
  rewrite fetch_weather_try_unfold, get_weather_unfold.
  destruct (String.eqb (city_name w) "").
  - intros [= <- <-]. auto.
  - destruct (wrap_failure _) as [raw | e'].
    + destruct (WeatherData.__init__ raw); [discriminate |].
      intros [= <- <-]. auto.
    + intros [= <- <-]. auto.
Qed.

Lemma fetch_weather_unfold (self : WeatherApp.t) (w : World) :
  WeatherApp.__fetch_weather self w =
    match WeatherApp.__fetch_weather_try self w with
    | (Return u, w1) => (Return u, w1)
    | (Raise e, w1) =>
        if isinstance e WeatherAPIError || isinstance e ValueError
        then (Return tt, write_stdout ("Error: " +:+ exn_str e) w1)
        else (Raise e, w1)
    end.
Proof.
  unfold WeatherApp.__fetch_weather, try_except, except,
    WeatherApp.__show_error, print.
  destruct (WeatherApp.__fetch_weather_try self w) as [[u | e] w1];
    [reflexivity |].
  simpl. rewrite orb_false_r.
  destruct (isinstance e WeatherAPIError || isinstance e ValueError);
    reflexivity.
Qed.

(** The labels change only when a record was built from a fetched
    payload, and then they show that record. *)
Lemma labels_change_only_with_a_record (self : WeatherApp.t) (w : World) :
  display (snd (WeatherApp.__fetch_weather self w)) = display w ∨
  ∃ raw r,
    fst (WeatherAPI.get_weather (WeatherApp._WeatherApp__api self)
           (city_name w) w) = Return raw ∧
    WeatherData.__init__ raw = Return r ∧
    display (snd (WeatherApp.__fetch_weather self w)) =
      WeatherDisplay.update_display (display w) r.
Proof.
  rewrite fetch_weather_unfold.
  destruct (WeatherApp.__fetch_weather_try self w) as [[[] | e] w1] eqn:Htry.
  - right. rewrite fetch_weather_try_unfold in Htry.
    destruct (String.eqb (city_name w) ""); [discriminate |].
    rewrite get_weather_unfold in *.
    destruct (wrap_failure _) as [raw | e]; [| discriminate].
    destruct (WeatherData.__init__ raw) as [r | e] eqn:Hr; [| discriminate].
    injection Htry as <-. exists raw, r. auto.
  - left. apply fetch_weather_try_Raise in Htry as (Hd & _ & _).
    destruct (isinstance e WeatherAPIError || isinstance e ValueError);
      simpl; exact Hd.
Qed.

End Flow.


(** ** The model on the scenarios of the specification *)

(** Ties go to the even digit, and they are decided on the exact binary
    value: 0.25 is a tie, 0.35 lies below one. *)
Example round_quarter : round 0.25 1 = 0.2%float.
Proof. vm_compute. reflexivity. Qed.

Example round_below_tie : round 0.35 1 = 0.3%float.
Proof. vm_compute. reflexivity. Qed.

(** 300 K, given as an int, is 26.9 degrees. *)
Example celsius_of_300 :
  (x ← sub_float (PyInt 300) 273.15; Return (round x 1)) = Return 26.9%float.
Proof. vm_compute. reflexivity. Qed.

(** The end-to-end scenario: the record, and what the labels show. *)
Example clouds_record :
  WeatherData.__init__ clouds_payload =
    Return (WeatherData.mk clouds_payload (PyStr "Clouds")
              (PyStr "overcast clouds") 25 (PyInt 1012) (PyInt 77)).
Proof. vm_compute. reflexivity. Qed.

Example clouds_displayed :
  @WeatherApp.__fetch_weather (serve clouds_payload) sample_format
    WeatherApp.__init__ (selected "Goa") =
    (Return tt,
     mk_world "Goa"
       (WeatherDisplay.mk (PyStr "Clouds") (PyStr "overcast clouds")
          (PyStr "<float>°C") (PyStr "1012 hPa") (PyStr "77%"))
       []
       ["https://api.openweathermap.org/data/2.5/weather?q=Goa&appid="]).
Proof. vm_compute. reflexivity. Qed.

(** A transport error that is no [RequestException] passes [get_weather]
    unwrapped. *)
Example foreign_error_is_not_wrapped :
  fst (@WeatherAPI.get_weather (refuse (mk_exn TypeError "bad argument"))
         (WeatherAPI.__init__ "") "Goa" (selected "Goa")) =
    Raise (mk_exn TypeError "bad argument").
Proof. reflexivity. Qed.

(** * The claims about record construction *)

Section RecordClaims.
Import WeatherData WeatherDataFacts.

(** C2: for every payload whose [main.temp] is a number [temp], the
    temperature of the constructed record is [round(temp - 273.15, 1)];
    [temp = 273.15] gives [0.0] and [temp = 298.15] gives [25.0]. *)
Theorem temperature_is_rounded_celsius (raw : pyval) (r : WeatherData.t)
    (temp : pyval) :
  __init__ raw = Return r →
  main_field raw "temp" = Return temp →
  (∃ x, as_float temp = Some (Return x) ∧
        temperature r = round (x - 273.15) 1) ∧
  (temp = PyFloat 273.15 → temperature r = 0%float) ∧
  (temp = PyFloat 298.15 → temperature r = 25%float).
Proof.
  intros Hr Htemp.
  destruct (init_Return_fields _ _ Hr)
    as (_ & _ & _ & (temp' & x & Htemp' & Hx & Ht) & _).
  rewrite Htemp in Htemp'. injection Htemp' as <-.
  unfold temperature. rewrite Ht.
  split; [eauto |].
  split; intros ->; injection Hx as <-; vm_compute; reflexivity.
Qed.

Lemma temperature_is_rounded_celsius_witness :
  (__init__ freezing_payload =
     Return (mk freezing_payload (PyStr "Snow") (PyStr "light snow")
                (273.15 - 273.15) (PyInt 1020) (PyInt 90)) ∧
   main_field freezing_payload "temp" = Return (PyFloat 273.15)) ∧
  temperature (mk freezing_payload (PyStr "Snow") (PyStr "light snow")
                  (273.15 - 273.15) (PyInt 1020) (PyInt 90)) = 0%float.
Proof.
  split; [split; vm_compute; reflexivity |].
  apply (temperature_is_rounded_celsius freezing_payload _ (PyFloat 273.15));
    vm_compute; reflexivity.
Defined.

(** C3 as the code has it: construction checks no range.  The pressure of
    the record is an integer above zero exactly when [main.pressure] of the
    payload is, and its humidity is an integer from 0 to 100 exactly when
    [main.humidity] is. *)
Theorem ranges_are_those_of_the_payload (raw : pyval) (r : WeatherData.t)
    (p h : pyval) :
  __init__ raw = Return r →
  main_field raw "pressure" = Return p →
  main_field raw "humidity" = Return h →
  pressure_in_range (pressure r) = pressure_in_range p ∧
  humidity_in_range (humidity r) = humidity_in_range h.
Proof.
  intros Hr Hp Hh.
  destruct (init_Return_fields _ _ Hr) as (_ & _ & _ & _ & Hp' & Hh').
  rewrite Hp in Hp'. rewrite Hh in Hh'.
  injection Hp' as ->. injection Hh' as ->. split; reflexivity.
Qed.

Lemma ranges_are_those_of_the_payload_witness :
  (__init__ clouds_payload =
     Return (mk clouds_payload (PyStr "Clouds") (PyStr "overcast clouds")
                (298.15 - 273.15) (PyInt 1012) (PyInt 77)) ∧
   main_field clouds_payload "pressure" = Return (PyInt 1012) ∧
   main_field clouds_payload "humidity" = Return (PyInt 77)) ∧
  pressure_in_range
    (pressure (mk clouds_payload (PyStr "Clouds") (PyStr "overcast clouds")
                  (298.15 - 273.15) (PyInt 1012) (PyInt 77))) = true ∧
  humidity_in_range
    (humidity (mk clouds_payload (PyStr "Clouds") (PyStr "overcast clouds")
                  (298.15 - 273.15) (PyInt 1012) (PyInt 77))) = true.
Proof.
  split; [repeat split; vm_compute; reflexivity |].
  apply (ranges_are_those_of_the_payload clouds_payload _
           (PyInt 1012) (PyInt 77)); vm_compute; reflexivity.
Defined.

(** C3 as stated fails: a payload with pressure -1 and humidity 150 yields
    a record that carries both. *)
Lemma out_of_range_record_is_built :
  ∃ r, __init__ out_of_range_payload = Return r ∧
       pressure r = PyInt (-1) ∧ pressure_in_range (pressure r) = false ∧
       humidity r = PyInt 150 ∧ humidity_in_range (humidity r) = false.
Proof.
  eexists. split; [vm_compute; reflexivity |].
  repeat split.
Qed.

(** C6: for every payload with a non-empty [weather] sequence and a [main]
    object, the record's climate and description are [main] and
    [description] of [weather[0]], and its pressure and humidity are
    [main.pressure] and [main.humidity] as they stand; the record exists
    as soon as those four keys and a numeric [temp] are there. *)
Theorem fields_are_read_from_the_payload (raw weather : pyval)
    (rest : list pyval) (main_data : gmap string pyval) :
  getitem_str raw "weather" = Return (PyList (weather :: rest)) →
  getitem_str raw "main" = Return (PyDict main_data) →
  (∀ r, __init__ raw = Return r →
        getitem_str weather "main" = Return (climate r) ∧
        getitem_str weather "description" = Return (description r) ∧
        main_data !! "pressure" = Some (pressure r) ∧
        main_data !! "humidity" = Some (humidity r)) ∧
  (∀ c dsc temp x p h,
      getitem_str weather "main" = Return c →
      getitem_str weather "description" = Return dsc →
      main_data !! "temp" = Some temp →
      as_float temp = Some (Return x) →
      main_data !! "pressure" = Some p →
      main_data !! "humidity" = Some h →
      ∃ r, __init__ raw = Return r ∧
           climate r = c ∧ description r = dsc ∧
           pressure r = p ∧ humidity r = h).
Proof.
  intros Hws Hm. split.
  - intros r Hr.
    destruct (init_Return_fields _ _ Hr) as (_ & Hc & Hd & _ & Hp & Hh).
    unfold weather0_field, main_field in *.
    rewrite Hws in Hc, Hd. rewrite Hm in Hp, Hh. simpl in *.
    repeat split; try assumption.
    + destruct (main_data !! "pressure"); congruence.
    + destruct (main_data !! "humidity"); congruence.
  - intros c dsc temp x p h Hc Hd Ht Hx Hp Hh.
    eexists. split.
    + apply (init_total raw c dsc temp x p h);
        unfold weather0_field, main_field;
        rewrite ?Hws, ?Hm; simpl; rewrite ?Ht, ?Hp, ?Hh; assumption || reflexivity.
    + repeat split.
Qed.

Lemma fields_are_read_from_the_payload_witness :
  (getitem_str clouds_payload "weather" =
     Return (PyList [PyDict {[ "main" := PyStr "Clouds";
                               "description" := PyStr "overcast clouds" ]}]) ∧
   getitem_str clouds_payload "main" =
     Return (main_of (PyFloat 298.15) (PyInt 1012) (PyInt 77))) ∧
  ∃ r, __init__ clouds_payload = Return r ∧
       climate r = PyStr "Clouds" ∧
       description r = PyStr "overcast clouds" ∧
       pressure r = PyInt 1012 ∧ humidity r = PyInt 77.
Proof.
  split; [split; vm_compute; reflexivity |].
  refine (proj2 (fields_are_read_from_the_payload clouds_payload _ [] _ _ _)
            _ _ (PyFloat 298.15) 298.15%float _ _ _ _ _ _ _ _);
    vm_compute; reflexivity.
Defined.

End RecordClaims.

(** * The claims about the fetch and the callback *)

Section FlowClaims.
Context {R : Requests} {F : Format}.

(** C7: for every city name and API key, [get_weather] issues one GET
    whose URL is the base URL, [?q=], the city name, [&appid=] and the key,
    put together as they are: nothing in the city name is encoded. *)
Theorem get_weather_requests_plain_url (api_key city : string) (w : World) :
  WeatherAPI.request_url (WeatherAPI.__init__ api_key) city =
    "https://api.openweathermap.org/data/2.5/weather" +:+ "?q=" +:+ city
    +:+ "&appid=" +:+ api_key ∧
  snd (WeatherAPI.get_weather (WeatherAPI.__init__ api_key) city w) =
    log_request
      ("https://api.openweathermap.org/data/2.5/weather" +:+ "?q=" +:+ city
       +:+ "&appid=" +:+ api_key) w ∧
  requests_log
    (snd (WeatherAPI.get_weather (WeatherAPI.__init__ api_key) city w)) =
    (requests_log w ++
     ["https://api.openweathermap.org/data/2.5/weather" +:+ "?q=" +:+ city
      +:+ "&appid=" +:+ api_key])%list.
Proof.
  rewrite get_weather_unfold. repeat split.
Qed.

(** C5: when the transport raises a transport-level failure, [get_weather]
    raises a [WeatherAPIError] whose text ends with the description of the
    cause, and the callback prints that text and returns normally. *)
Theorem transport_failure_is_wrapped_and_reported (self : WeatherApp.t)
    (w : World) (e : exn) :
  let api := WeatherApp._WeatherApp__api self in
  let url := WeatherAPI.request_url api (city_name w) in
  String.eqb (city_name w) "" = false →
  transport_fails (requests_log w) url e →
  isinstance e RequestException = true →
  WeatherAPI.get_weather api (city_name w) w =
    (Raise (mk_exn WeatherAPIError
              ("Failed to fetch weather data: " +:+ exn_str e)),
     log_request url w) ∧
  WeatherApp.__fetch_weather self w =
    (Return tt,
     write_stdout ("Error: " +:+ "Failed to fetch weather data: "
                   +:+ exn_str e) (log_request url w)).
Proof.
  intros api url Hcity Hfail He.
  assert (Hout : wrap_failure (http_outcome (requests_log w) url) =
                 Raise (mk_exn WeatherAPIError
                          ("Failed to fetch weather data: " +:+ exn_str e))).
  { unfold http_outcome.
    destruct Hfail as [-> | (response & -> & Hst)]; simpl.
    - rewrite He. reflexivity.
    - rewrite Hst. simpl. rewrite He. reflexivity. }
  assert (Hget : WeatherAPI.get_weather api (city_name w) w =
                 (Raise (mk_exn WeatherAPIError
                           ("Failed to fetch weather data: " +:+ exn_str e)),
                  log_request url w)).
  { rewrite get_weather_unfold. fold url. rewrite Hout. reflexivity. }
  split; [exact Hget |].
  rewrite fetch_weather_unfold, fetch_weather_try_unfold, Hcity.
  fold api. rewrite Hget. reflexivity.
Qed.

(** C4: when the selected city name is the empty string the [try] block
    raises [ValueError], which the callback reports, and no request is
    made. *)
Theorem empty_city_is_rejected_before_any_request (self : WeatherApp.t)
    (w : World) :
  city_name w = "" →
  WeatherApp.__fetch_weather_try self w =
    (Raise (mk_exn ValueError "Please select a city"), w) ∧
  WeatherApp.__fetch_weather self w =
    (Return tt, write_stdout "Error: Please select a city" w) ∧
  requests_log (snd (WeatherApp.__fetch_weather self w)) = requests_log w.
Proof.
  intros Hcity.
  assert (Htry : WeatherApp.__fetch_weather_try self w =
                 (Raise (mk_exn ValueError "Please select a city"), w)).
  { rewrite fetch_weather_try_unfold, Hcity. reflexivity. }
  assert (Hrun : WeatherApp.__fetch_weather self w =
                 (Return tt, write_stdout "Error: Please select a city" w)).
  { rewrite fetch_weather_unfold, Htry. reflexivity. }
  rewrite Hrun. auto.
Qed.

(** C9: when the callback ends in a handled error (a [WeatherAPIError] or a
    [ValueError] out of the [try] block), none of the five value labels has
    changed. *)
Theorem labels_untouched_on_handled_error (self : WeatherApp.t)
    (w w1 : World) (e : exn) :
  WeatherApp.__fetch_weather_try self w = (Raise e, w1) →
  isinstance e WeatherAPIError || isinstance e ValueError = true →
  WeatherApp.__fetch_weather self w =
    (Return tt, write_stdout ("Error: " +:+ exn_str e) w1) ∧
  display (snd (WeatherApp.__fetch_weather self w)) = display w ∧
  (let d := display (snd (WeatherApp.__fetch_weather self w)) in
   WeatherDisplay.climate_value d = WeatherDisplay.climate_value (display w) ∧
   WeatherDisplay.desc_value d = WeatherDisplay.desc_value (display w) ∧
   WeatherDisplay.temp_value d = WeatherDisplay.temp_value (display w) ∧
   WeatherDisplay.pressure_value d =
     WeatherDisplay.pressure_value (display w) ∧
   WeatherDisplay.humidity_value d =
     WeatherDisplay.humidity_value (display w)).
Proof.
  intros Htry Hhandled.
  destruct (fetch_weather_try_Raise _ _ _ _ Htry) as (Hd & _ & _).
  rewrite fetch_weather_unfold, Htry, Hhandled. simpl.
  rewrite Hd. repeat split.
Qed.

(** C10: the application builds its [WeatherAPI] with the empty string as
    key, so the URL of every request it makes ends with [appid=] and
    nothing after it. *)
Theorem shipped_app_sends_empty_appid (w : World) :
  String.eqb (city_name w) "" = false →
  WeatherAPI._WeatherAPI__api_key
    (WeatherApp._WeatherApp__api WeatherApp.__init__) = "" ∧
  requests_log (snd (WeatherApp.__fetch_weather WeatherApp.__init__ w)) =
    (requests_log w ++
     ["https://api.openweathermap.org/data/2.5/weather?q=" +:+ city_name w
      +:+ "&appid="])%list ∧
  (∀ city w0,
      requests_log
        (snd (WeatherAPI.get_weather
                (WeatherApp._WeatherApp__api WeatherApp.__init__) city w0)) =
      (requests_log w0 ++
       ["https://api.openweathermap.org/data/2.5/weather?q=" +:+ city
        +:+ "&appid="])%list).
Proof.
  intros Hcity. split; [reflexivity |]. split.
  - rewrite fetch_weather_unfold, fetch_weather_try_unfold, Hcity.
    rewrite get_weather_unfold.
    destruct (wrap_failure _) as [raw | e].
    + destruct (WeatherData.__init__ raw) as [r | e]; [reflexivity |].
      destruct (isinstance e WeatherAPIError || isinstance e ValueError);
        reflexivity.
    + destruct (isinstance e WeatherAPIError || isinstance e ValueError);
        reflexivity.
  - intros city w0. rewrite get_weather_unfold. reflexivity.
Qed.

(** C8: against a stubbed transport, a second fetch with the same city
    returns the same payload, and the record built from it has the same
    five fields as the first. *)
Theorem same_payload_same_record (self : WeatherAPI.t) (city : string)
    (w1 w1' : World) (raw : pyval) (r1 : WeatherData.t) :
  stateless R →
  WeatherAPI.get_weather self city w1 = (Return raw, w1') →
  WeatherData.__init__ raw = Return r1 →
  ∀ w2, ∃ raw2 r2,
    fst (WeatherAPI.get_weather self city w2) = Return raw2 ∧
    WeatherData.__init__ raw2 = Return r2 ∧
    WeatherData.climate r1 = WeatherData.climate r2 ∧
    WeatherData.description r1 = WeatherData.description r2 ∧
    WeatherData.temperature r1 = WeatherData.temperature r2 ∧
    WeatherData.pressure r1 = WeatherData.pressure r2 ∧
    WeatherData.humidity r1 = WeatherData.humidity r2.
Proof.
  intros Hstub Hget Hr1 w2.
  rewrite get_weather_unfold in Hget. injection Hget as Hout _.
  exists raw, r1. rewrite get_weather_unfold. simpl.
  unfold http_outcome in *.
  rewrite (Hstub (requests_log w2) (requests_log w1)), Hout.
  repeat split. exact Hr1.
Qed.

(** C1 as the code has it.  For every payload the fetch hands to the
    callback: a [WeatherAPIError] or a [ValueError] raised in the [try]
    block is caught and printed; record construction raises only
    [KeyError], [IndexError], [TypeError] or [OverflowError] -- a
    [KeyError] when [weather] is missing, an [IndexError] when it is an
    empty sequence -- and none of these is caught: it leaves the callback,
    with the labels and the console as they were. *)
Theorem construction_errors_leave_the_callback (self : WeatherApp.t)
    (w : World) (raw : pyval) :
  let url :=
    WeatherAPI.request_url (WeatherApp._WeatherApp__api self) (city_name w) in
  String.eqb (city_name w) "" = false →
  http_outcome (requests_log w) url = Return raw →
  WeatherApp.__fetch_weather self w =
    match WeatherData.__init__ raw with
    | Return r =>
        (Return tt,
         set_display (WeatherDisplay.update_display (display w) r)
           (log_request url w))
    | Raise e => (Raise e, log_request url w)
    end ∧
  (∀ e, WeatherData.__init__ raw = Raise e →
        exn_class_of e ∈ builtin_errors ∧
        isinstance e WeatherAPIError = false ∧
        isinstance e ValueError = false) ∧
  (∀ d, raw = PyDict d → d !! "weather" = None →
        WeatherData.__init__ raw = Raise (mk_exn KeyError "'weather'")) ∧
  (∀ d, raw = PyDict d → d !! "weather" = Some (PyList []) →
        WeatherData.__init__ raw =
          Raise (mk_exn IndexError "list index out of range")) ∧
  (∀ w0 w1 e,
      WeatherApp.__fetch_weather_try self w0 = (Raise e, w1) →
      isinstance e WeatherAPIError || isinstance e ValueError = true →
      WeatherApp.__fetch_weather self w0 =
        (Return tt, write_stdout ("Error: " +:+ exn_str e) w1)).
Proof.
  intros url Hcity Hout.
  assert (Hesc : ∀ e, WeatherData.__init__ raw = Raise e →
                      exn_class_of e ∈ builtin_errors ∧
                      isinstance e WeatherAPIError = false ∧
                      isinstance e ValueError = false).
  { intros e He. apply WeatherDataFacts.init_Raise in He.
    split; [exact He |]. apply lookup_errors_not_handled, He. }
  split; [| split; [exact Hesc | split; [| split]]].
  - rewrite fetch_weather_unfold, fetch_weather_try_unfold, Hcity.
    rewrite get_weather_unfold. fold url. rewrite Hout. simpl.
    destruct (WeatherData.__init__ raw) as [r | e] eqn:Hr; [reflexivity |].
    destruct (Hesc e eq_refl) as (_ & -> & ->). reflexivity.
  - intros d -> Hd.
    unfold WeatherData.__init__, WeatherData.__process_data. simpl.
    rewrite Hd. reflexivity.
  - intros d -> Hd.
    unfold WeatherData.__init__, WeatherData.__process_data. simpl.
    rewrite Hd. reflexivity.
  - intros w0 w1 e Htry Hhandled.
    rewrite fetch_weather_unfold, Htry, Hhandled. reflexivity.
Qed.

End FlowClaims.

(** ** The claims at concrete inputs *)

(** C1 as stated fails: with a payload that lacks [weather] the callback
    ends in an uncaught [KeyError], with an empty [weather] in an uncaught
    [IndexError]; nothing is printed. *)
Lemma lookup_errors_leave_the_callback :
  @WeatherApp.__fetch_weather (serve no_weather_payload) sample_format
    WeatherApp.__init__ (selected "Goa") =
    (Raise (mk_exn KeyError "'weather'"),
     mk_world "Goa" WeatherDisplay.__init__ []
       ["https://api.openweathermap.org/data/2.5/weather?q=Goa&appid="]) ∧
  @WeatherApp.__fetch_weather (serve empty_weather_payload) sample_format
    WeatherApp.__init__ (selected "Goa") =
    (Raise (mk_exn IndexError "list index out of range"),
     mk_world "Goa" WeatherDisplay.__init__ []
       ["https://api.openweathermap.org/data/2.5/weather?q=Goa&appid="]).
Proof. split; vm_compute; reflexivity. Qed.

Lemma construction_errors_leave_the_callback_witness :
  (String.eqb (city_name (selected "Goa")) "" = false ∧
   @http_outcome (serve no_weather_payload) []
     "https://api.openweathermap.org/data/2.5/weather?q=Goa&appid=" =
     Return no_weather_payload) ∧
  WeatherData.__init__ no_weather_payload =
    Raise (mk_exn KeyError "'weather'").
Proof.
  split; [split; reflexivity |].
  refine (proj1 (proj2 (proj2
            (@construction_errors_leave_the_callback
               (serve no_weather_payload) sample_format WeatherApp.__init__
               (selected "Goa") no_weather_payload _ _))) _ eq_refl _);
    vm_compute; reflexivity.
Defined.

Lemma transport_failure_is_wrapped_and_reported_witness :
  (String.eqb (city_name (selected "Goa")) "" = false ∧
   @transport_fails (refuse connection_refused) []
     "https://api.openweathermap.org/data/2.5/weather?q=Goa&appid="
     connection_refused ∧
   isinstance connection_refused RequestException = true) ∧
  @WeatherApp.__fetch_weather (refuse connection_refused) sample_format
    WeatherApp.__init__ (selected "Goa") =
    (Return tt,
     mk_world "Goa" WeatherDisplay.__init__
       ["Error: Failed to fetch weather data: Connection refused"]
       ["https://api.openweathermap.org/data/2.5/weather?q=Goa&appid="]).
Proof.
  split; [split; [reflexivity | split; [left; reflexivity | reflexivity]] |].
  refine (proj2 (@transport_failure_is_wrapped_and_reported
                   (refuse connection_refused) sample_format
                   WeatherApp.__init__ (selected "Goa") connection_refused
                   _ _ _));
    [reflexivity | left; reflexivity | reflexivity].
Defined.

Lemma empty_city_is_rejected_before_any_request_witness :
  city_name WeatherApp.initial_world = "" ∧
  @WeatherApp.__fetch_weather (serve clouds_payload) sample_format
    WeatherApp.__init__ WeatherApp.initial_world =
    (Return tt,
     mk_world "" WeatherDisplay.__init__ ["Error: Please select a city"] []).
Proof.
  split; [reflexivity |].
  refine (proj1 (proj2 (@empty_city_is_rejected_before_any_request
                          (serve clouds_payload) sample_format
                          WeatherApp.__init__ WeatherApp.initial_world _)));
    reflexivity.
Defined.

Lemma labels_untouched_on_handled_error_witness :
  (@WeatherApp.__fetch_weather_try (refuse connection_refused) sample_format
     WeatherApp.__init__ (selected "Goa") =
     (Raise (mk_exn WeatherAPIError
               "Failed to fetch weather data: Connection refused"),
      log_request
        "https://api.openweathermap.org/data/2.5/weather?q=Goa&appid="
        (selected "Goa")) ∧
   isinstance (mk_exn WeatherAPIError
                 "Failed to fetch weather data: Connection refused")
     WeatherAPIError
   || isinstance (mk_exn WeatherAPIError
                    "Failed to fetch weather data: Connection refused")
        ValueError = true) ∧
  display (snd (@WeatherApp.__fetch_weather (refuse connection_refused)
                  sample_format WeatherApp.__init__ (selected "Goa"))) =
    WeatherDisplay.__init__.
Proof.
  split; [split; vm_compute; reflexivity |].
  refine (proj1 (proj2 (@labels_untouched_on_handled_error
                          (refuse connection_refused) sample_format
                          WeatherApp.__init__ (selected "Goa") _ _ _ _)));
    vm_compute; reflexivity.
Defined.

Lemma shipped_app_sends_empty_appid_witness :
  String.eqb (city_name (selected "Tamil Nadu")) "" = false ∧
  requests_log (snd (@WeatherApp.__fetch_weather (serve clouds_payload)
                       sample_format WeatherApp.__init__
                       (selected "Tamil Nadu"))) =
    ["https://api.openweathermap.org/data/2.5/weather?q=Tamil Nadu&appid="].
Proof.
  split; [reflexivity |].
  refine (proj1 (proj2 (@shipped_app_sends_empty_appid
                          (serve clouds_payload) sample_format
                          (selected "Tamil Nadu") _)));
    reflexivity.
Defined.

Lemma same_payload_same_record_witness :
  (stateless (serve clouds_payload) ∧
   @WeatherAPI.get_weather (serve clouds_payload) (WeatherAPI.__init__ "")
     "Goa" (selected "Goa") =
     (Return clouds_payload,
      log_request
        "https://api.openweathermap.org/data/2.5/weather?q=Goa&appid="
        (selected "Goa")) ∧
   WeatherData.__init__ clouds_payload =
     Return (WeatherData.mk clouds_payload (PyStr "Clouds")
               (PyStr "overcast clouds") (298.15 - 273.15) (PyInt 1012)
               (PyInt 77))) ∧
  ∃ raw2 r2,
    fst (@WeatherAPI.get_weather (serve clouds_payload)
           (WeatherAPI.__init__ "") "Goa"
           (log_request
              "https://api.openweathermap.org/data/2.5/weather?q=Goa&appid="
              (selected "Goa"))) = Return raw2 ∧
    WeatherData.__init__ raw2 = Return r2 ∧
    WeatherData.temperature r2 = 25%float.
Proof.
  split; [split; [intros log log' url; reflexivity
                 | split; vm_compute; reflexivity] |].
  destruct (@same_payload_same_record (serve clouds_payload)
              (WeatherAPI.__init__ "") "Goa" (selected "Goa") _
              clouds_payload _
              (fun log log' url => eq_refl) eq_refl eq_refl
              (log_request
                 "https://api.openweathermap.org/data/2.5/weather?q=Goa&appid="
                 (selected "Goa")))
    as (raw2 & r2 & Hget & Hr2 & _ & _ & Ht & _).
  exists raw2, r2. repeat split; [exact Hget | exact Hr2 |].
  rewrite <- Ht. vm_compute. reflexivity.
Defined.

(** * Further properties of record construction *)

Section RecordProperties.
Import WeatherData WeatherDataFacts.

(** X1: a record is built exactly when the five paths
    [weather[0].main], [weather[0].description], [main.temp],
    [main.pressure] and [main.humidity] can be read and [temp] converts to a
    float; nothing else about the payload matters for success. *)
Theorem record_exists_iff (raw : pyval) :
  (∃ r, __init__ raw = Return r) ↔
  (∃ c dsc temp x p h,
      weather0_field raw "main" = Return c ∧
      weather0_field raw "description" = Return dsc ∧
      main_field raw "temp" = Return temp ∧
      as_float temp = Some (Return x) ∧
      main_field raw "pressure" = Return p ∧
      main_field raw "humidity" = Return h).
Proof.
  split.
  - intros (r & Hr).
    destruct (init_Return_fields _ _ Hr)
      as (_ & Hc & Hd & (temp & x & Ht & Hx & _) & Hp & Hh).
    exists (climate r), (description r), temp, x, (pressure r), (humidity r).
    auto 10.
  - intros (c & dsc & temp & x & p & h & Hc & Hd & Ht & Hx & Hp & Hh).
    eexists. eapply init_total; eassumption.
Qed.

(** X2: a payload that is no JSON object (an array, a string, a number,
    [null]) makes construction raise [TypeError], at its first subscript. *)
Theorem non_object_payload_is_a_type_error (raw : pyval) :
  is_object raw = false →
  ∃ msg, __init__ raw = Raise (mk_exn TypeError msg).
Proof.
  intros Hobj. unfold __init__, __process_data.
  destruct raw; try discriminate; simpl; eauto.
Qed.

Lemma non_object_payload_is_a_type_error_witness :
  is_object (PyList [clouds_payload]) = false ∧
  ∃ msg, __init__ (PyList [clouds_payload]) = Raise (mk_exn TypeError msg).
Proof.
  split; [reflexivity |].
  apply (non_object_payload_is_a_type_error (PyList [clouds_payload])).
  reflexivity.
Defined.

(** X3: when [weather[0]] and [main] are there but [main.temp] is not a
    number, construction raises the [TypeError] of the subtraction, whether
    or not pressure and humidity are present. *)
Theorem non_numeric_temp_is_a_type_error (raw c dsc temp : pyval) :
  weather0_field raw "main" = Return c →
  weather0_field raw "description" = Return dsc →
  main_field raw "temp" = Return temp →
  as_float temp = None →
  __init__ raw =
    Raise (mk_exn TypeError
             ("unsupported operand type(s) for -: '" +:+ type_name temp
              +:+ "' and 'float'")).
Proof.
  unfold __init__, __process_data, weather0_field, main_field, sub_float.
  intros Hc Hd Ht Hx.
  apply bind_Return in Hc as (ws & Hws & Hc).
  apply bind_Return in Hc as (w & Hw & Hc).
  apply bind_Return in Ht as (m & Hm & Ht).
  rewrite Hws, Hm in *. simpl in *. rewrite Hw in *. simpl in *.
  rewrite Hc, Hd. simpl. rewrite Ht. simpl. rewrite Hx. reflexivity.
Qed.

Lemma non_numeric_temp_is_a_type_error_witness :
  (weather0_field text_temp_payload "main" = Return (PyStr "Clouds") ∧
   weather0_field text_temp_payload "description" =
     Return (PyStr "overcast clouds") ∧
   main_field text_temp_payload "temp" = Return (PyStr "298.15") ∧
   as_float (PyStr "298.15") = None) ∧
  __init__ text_temp_payload =
    Raise (mk_exn TypeError
             "unsupported operand type(s) for -: 'str' and 'float'").
Proof.
  split; [repeat split; vm_compute; reflexivity |].
  apply (non_numeric_temp_is_a_type_error text_temp_payload
           (PyStr "Clouds") (PyStr "overcast clouds") (PyStr "298.15"));
    vm_compute; reflexivity.
Defined.

(** X4: the record depends on the payload through the five paths only.  Two
    payloads that agree on them give records with the same five fields:
    further keys and further entries of [weather] are ignored. *)
Theorem record_depends_on_five_paths (raw1 raw2 : pyval) (r1 : WeatherData.t) :
  weather0_field raw1 "main" = weather0_field raw2 "main" →
  weather0_field raw1 "description" = weather0_field raw2 "description" →
  main_field raw1 "temp" = main_field raw2 "temp" →
  main_field raw1 "pressure" = main_field raw2 "pressure" →
  main_field raw1 "humidity" = main_field raw2 "humidity" →
  __init__ raw1 = Return r1 →
  ∃ r2, __init__ raw2 = Return r2 ∧
        climate r2 = climate r1 ∧ description r2 = description r1 ∧
        temperature r2 = temperature r1 ∧
        pressure r2 = pressure r1 ∧ humidity r2 = humidity r1.
Proof.
  intros Ec Ed Et Ep Eh Hr.
  destruct (init_Return_fields _ _ Hr)
    as (_ & Hc & Hd & (temp & x & Ht & Hx & Hz) & Hp & Hh).
  rewrite Ec in Hc. rewrite Ed in Hd. rewrite Et in Ht.
  rewrite Ep in Hp. rewrite Eh in Hh.
  eexists. split; [eapply init_total; eassumption |].
  unfold temperature. simpl. rewrite Hz. repeat split.
Qed.

Lemma record_depends_on_five_paths_witness :
  (weather0_field clouds_payload "main" =
     weather0_field verbose_payload "main" ∧
   weather0_field clouds_payload "description" =
     weather0_field verbose_payload "description" ∧
   main_field clouds_payload "temp" = main_field verbose_payload "temp" ∧
   main_field clouds_payload "pressure" =
     main_field verbose_payload "pressure" ∧
   main_field clouds_payload "humidity" =
     main_field verbose_payload "humidity" ∧
   __init__ clouds_payload =
     Return (mk clouds_payload (PyStr "Clouds") (PyStr "overcast clouds")
               (298.15 - 273.15) (PyInt 1012) (PyInt 77))) ∧
  ∃ r2, __init__ verbose_payload = Return r2 ∧
        climate r2 = PyStr "Clouds" ∧ pressure r2 = PyInt 1012.
Proof.
  split; [repeat split; vm_compute; reflexivity |].
  destruct (record_depends_on_five_paths clouds_payload verbose_payload
              (mk clouds_payload (PyStr "Clouds") (PyStr "overcast clouds")
                 (298.15 - 273.15) (PyInt 1012) (PyInt 77)))
    as (r2 & Hr2 & Hc & _ & _ & Hp & _); try (vm_compute; reflexivity).
  exists r2. rewrite Hc, Hp. repeat split. exact Hr2.
Defined.

End RecordProperties.

(** * Further properties of the fetch and the callback *)


Lemma wrap_failure_Raise (r : result pyval) (e : exn) :
  wrap_failure r = Raise e →
  isinstance e RequestException = false ∧
  (isinstance e WeatherAPIError = true ∨ r = Raise e).
Proof.
  unfold wrap_failure. destruct r as [v | e0]; [discriminate |].
  destruct (isinstance e0 RequestException) eqn:He0; intros [= <-].
  - split; [reflexivity | left; reflexivity].
  - split; [exact He0 | right; reflexivity].
Qed.

Section FlowProperties.
Context {R : Requests} {F : Format}.

Lemma http_outcome_stateless (log log' : list string) (url : string) :
  stateless R → http_outcome log url = http_outcome log' url.
Proof. intros Hstub. unfold http_outcome. rewrite (Hstub log log'). reflexivity. Qed.

(** Writing the labels replaces all five texts. *)
Lemma update_display_overwrites (d d' : WeatherDisplay.t) (r : WeatherData.t) :
  WeatherDisplay.update_display d r = WeatherDisplay.update_display d' r.
Proof. reflexivity. Qed.

(** The callback, outcome by outcome of the transport and of construction. *)
Lemma callback_unfold (self : WeatherApp.t) (w : World) :
  let url :=
    WeatherAPI.request_url (WeatherApp._WeatherApp__api self) (city_name w) in
  WeatherApp.__fetch_weather self w =
    if String.eqb (city_name w) "" then
      (Return tt, write_stdout "Error: Please select a city" w)
    else
      match wrap_failure (http_outcome (requests_log w) url) with
      | Return raw =>
          match WeatherData.__init__ raw with
          | Return r =>
              (Return tt,
               set_display (WeatherDisplay.update_display (display w) r)
                 (log_request url w))
          | Raise e => (Raise e, log_request url w)
          end
      | Raise e =>
          if isinstance e WeatherAPIError || isinstance e ValueError
          then (Return tt,
                write_stdout ("Error: " +:+ exn_str e) (log_request url w))
          else (Raise e, log_request url w)
      end.
Proof.
  intros url.
  rewrite fetch_weather_unfold, fetch_weather_try_unfold, get_weather_unfold.
  fold url.
  destruct (String.eqb (city_name w) ""); [reflexivity |].
  destruct (wrap_failure _) as [raw | e]; [| reflexivity].
  destruct (WeatherData.__init__ raw) as [r | e] eqn:Hr; [reflexivity |].
  apply WeatherDataFacts.init_Raise, lookup_errors_not_handled in Hr
    as (Ha & Hv).
  unfold isinstance. rewrite Ha, Hv. reflexivity.
Qed.

(** X5: on a response with a good status, [get_weather] returns the decoded
    body as it is, whatever its shape, after exactly one request. *)
Theorem get_weather_returns_the_body (self : WeatherAPI.t) (city : string)
    (w : World) (response : Response) (raw : pyval) :
  requests_get (requests_log w) (WeatherAPI.request_url self city) =
    Return response →
  raise_for_status response = Return tt →
  json response = Return raw →
  WeatherAPI.get_weather self city w =
    (Return raw, log_request (WeatherAPI.request_url self city) w).
Proof.
  intros Hget Hst Hjs. rewrite get_weather_unfold.
  unfold http_outcome. rewrite Hget. simpl. rewrite Hst. simpl.
  rewrite Hjs. reflexivity.
Qed.

(** X6: no [RequestException] ever leaves [get_weather]: what it raises is
    a [WeatherAPIError], or an error of the transport that is not a
    [RequestException] and passes as it is. *)
Theorem get_weather_raises_no_request_exception (self : WeatherAPI.t)
    (city : string) (w w' : World) (e : exn) :
  WeatherAPI.get_weather self city w = (Raise e, w') →
  isinstance e RequestException = false ∧
  (isinstance e WeatherAPIError = true ∨
   http_outcome (requests_log w) (WeatherAPI.request_url self city) = Raise e).
Proof.
  rewrite get_weather_unfold. intros [= He _].
  apply wrap_failure_Raise in He. exact He.
Qed.

(** X7: a body that cannot be decoded, for which [json()] raises a
    [RequestException], is reported like a transport failure: [get_weather]
    raises [WeatherAPIError], the callback prints it and returns. *)
Theorem undecodable_body_is_wrapped_and_reported (self : WeatherApp.t)
    (w : World) (response : Response) (e : exn) :
  let api := WeatherApp._WeatherApp__api self in
  let url := WeatherAPI.request_url api (city_name w) in
  String.eqb (city_name w) "" = false →
  requests_get (requests_log w) url = Return response →
  raise_for_status response = Return tt →
  json response = Raise e →
  isinstance e RequestException = true →
  WeatherAPI.get_weather api (city_name w) w =
    (Raise (mk_exn WeatherAPIError
              ("Failed to fetch weather data: " +:+ exn_str e)),
     log_request url w) ∧
  WeatherApp.__fetch_weather self w =
    (Return tt,
     write_stdout ("Error: " +:+ "Failed to fetch weather data: "
                   +:+ exn_str e) (log_request url w)).
Proof.
  intros api url Hcity Hget Hst Hjs He.
  assert (Hout : wrap_failure (http_outcome (requests_log w) url) =
                 Raise (mk_exn WeatherAPIError
                          ("Failed to fetch weather data: " +:+ exn_str e))).
  { unfold http_outcome. rewrite Hget. simpl. rewrite Hst. simpl.
    rewrite Hjs. simpl. rewrite He. reflexivity. }
  split.
  - rewrite get_weather_unfold. fold url. rewrite Hout. reflexivity.
  - rewrite callback_unfold. fold api url. rewrite Hcity, Hout. reflexivity.
Qed.

(** X8: an error of the transport that is no [RequestException] passes
    [get_weather] unwrapped.  The callback then prints its bare text when it
    is a [ValueError] (or a [WeatherAPIError]), and lets it out otherwise. *)
Theorem foreign_errors_pass_unwrapped (self : WeatherApp.t) (w : World)
    (e : exn) :
  let api := WeatherApp._WeatherApp__api self in
  let url := WeatherAPI.request_url api (city_name w) in
  String.eqb (city_name w) "" = false →
  http_outcome (requests_log w) url = Raise e →
  isinstance e RequestException = false →
  WeatherAPI.get_weather api (city_name w) w = (Raise e, log_request url w) ∧
  WeatherApp.__fetch_weather self w =
    if isinstance e WeatherAPIError || isinstance e ValueError
    then (Return tt, write_stdout ("Error: " +:+ exn_str e) (log_request url w))
    else (Raise e, log_request url w).
Proof.
  intros api url Hcity Hout He.
  assert (Hw : wrap_failure (http_outcome (requests_log w) url) = Raise e).
  { rewrite Hout. simpl. rewrite He. reflexivity. }
  split.
  - rewrite get_weather_unfold. fold url. rewrite Hw. reflexivity.
  - rewrite callback_unfold. fold api url. rewrite Hcity, Hw. reflexivity.
Qed.



Lemma callback_frame (self : WeatherApp.t) (w : World) :
  city_name (snd (WeatherApp.__fetch_weather self w)) = city_name w ∧
  requests_log (snd (WeatherApp.__fetch_weather self w)) =
    if String.eqb (city_name w) "" then requests_log w
    else (requests_log w ++
          [WeatherAPI.request_url (WeatherApp._WeatherApp__api self)
             (city_name w)])%list.
Proof.
  rewrite callback_unfold.
  destruct (String.eqb (city_name w) ""); [split; reflexivity |].
  destruct (wrap_failure _) as [raw | e].
  - destruct (WeatherData.__init__ raw); split; reflexivity.
  - destruct (isinstance e WeatherAPIError || isinstance e ValueError);
      split; reflexivity.
Qed.

(** X11: the callback never changes the selection, never drops a logged
    request or a printed line, and adds at most one line to the console; it
    makes no request when nothing is selected and exactly one, for the
    selected name, otherwise. *)
Theorem callback_requests_once (self : WeatherApp.t) (w : World) :
  let w' := snd (WeatherApp.__fetch_weather self w) in
  city_name w' = city_name w ∧
  requests_log w' =
    (if String.eqb (city_name w) "" then requests_log w
     else (requests_log w ++
           [WeatherAPI.request_url (WeatherApp._WeatherApp__api self)
              (city_name w)])%list) ∧
  ∃ lines, stdout w' = (stdout w ++ lines)%list ∧ (length lines ≤ 1)%nat.
Proof.
  intros w'. subst w'.
  destruct (callback_frame self w) as (Hcity & Hlog).
  split; [exact Hcity | split; [exact Hlog |]].
  rewrite callback_unfold.
  destruct (String.eqb (city_name w) "").
  { exists ["Error: Please select a city"]. split; [reflexivity | simpl; lia]. }
  destruct (wrap_failure _) as [raw | e].
  - exists []. rewrite app_nil_r.
    destruct (WeatherData.__init__ raw); split; (reflexivity || (simpl; lia)).
  - destruct (isinstance e WeatherAPIError || isinstance e ValueError).
    + exists ["Error: " +:+ exn_str e]. split; [reflexivity | simpl; lia].
    + exists []. rewrite app_nil_r. split; [reflexivity | simpl; lia].
Qed.

(** X12: nothing is cached.  Against a transport that answers by the URL
    alone, running the callback a second time ends the same way, sends the
    same request again, prints the same line again if the first run printed
    one, and leaves the labels as the first run left them. *)
Theorem second_run_repeats_the_first (self : WeatherApp.t) (w : World) :
  stateless R →
  let run1 := WeatherApp.__fetch_weather self w in
  let run2 := WeatherApp.__fetch_weather self (snd run1) in
  fst run2 = fst run1 ∧
  display (snd run2) = display (snd run1) ∧
  (∃ lines, stdout (snd run1) = (stdout w ++ lines)%list ∧
            stdout (snd run2) = (stdout (snd run1) ++ lines)%list) ∧
  (∃ urls, requests_log (snd run1) = (requests_log w ++ urls)%list ∧
           requests_log (snd run2) = (requests_log (snd run1) ++ urls)%list).
Proof.
  intros Hstub run1 run2. subst run2 run1.
  destruct (callback_frame self w) as (Hcity & _).
  rewrite (callback_unfold self (snd _)). rewrite Hcity.
  rewrite (http_outcome_stateless _ (requests_log w) _ Hstub).
  rewrite callback_unfold.
  destruct (String.eqb (city_name w) "").
  { simpl. repeat split.
    - exists ["Error: Please select a city"]. split; reflexivity.
    - exists []. rewrite !app_nil_r. split; reflexivity. }
  set (url := WeatherAPI.request_url _ _).
  destruct (wrap_failure _) as [raw | e].
  - destruct (WeatherData.__init__ raw) as [r | e]; simpl.
    + repeat split.
      * exists []. rewrite !app_nil_r. split; reflexivity.
      * exists [url]. split; reflexivity.
    + repeat split.
      * exists []. rewrite !app_nil_r. split; reflexivity.
      * exists [url]. split; reflexivity.
  - destruct (isinstance e WeatherAPIError || isinstance e ValueError); simpl.
    + repeat split.
      * exists ["Error: " +:+ exn_str e]. split; reflexivity.
      * exists [url]. split; reflexivity.
    + repeat split.
      * exists []. rewrite !app_nil_r. split; reflexivity.
      * exists [url]. split; reflexivity.
Qed.

End FlowProperties.

(** ** The further properties at concrete inputs *)

Lemma get_weather_returns_the_body_witness :
  (@requests_get (serve (PyList [])) []
     (WeatherAPI.request_url (WeatherAPI.__init__ "") "Goa") =
     Return (mk_response (Return tt) (Return (PyList []))) ∧
   raise_for_status (mk_response (Return tt) (Return (PyList []))) =
     Return tt ∧
   json (mk_response (Return tt) (Return (PyList []))) =
     Return (PyList [])) ∧
  @WeatherAPI.get_weather (serve (PyList [])) (WeatherAPI.__init__ "") "Goa"
    (selected "Goa") =
    (Return (PyList []),
     mk_world "Goa" WeatherDisplay.__init__ []
       ["https://api.openweathermap.org/data/2.5/weather?q=Goa&appid="]).
Proof.
  split; [repeat split |].
  apply (@get_weather_returns_the_body (serve (PyList []))
           (WeatherAPI.__init__ "") "Goa" (selected "Goa")
           (mk_response (Return tt) (Return (PyList []))) (PyList []));
    reflexivity.
Defined.

Lemma get_weather_raises_no_request_exception_witness :
  @WeatherAPI.get_weather (refuse connection_refused) (WeatherAPI.__init__ "")
    "Goa" (selected "Goa") =
    (Raise (mk_exn WeatherAPIError
              "Failed to fetch weather data: Connection refused"),
     log_request "https://api.openweathermap.org/data/2.5/weather?q=Goa&appid="
       (selected "Goa")) ∧
  isinstance (mk_exn WeatherAPIError
                "Failed to fetch weather data: Connection refused")
    RequestException = false.
Proof.
  split; [reflexivity |].
  refine (proj1 (@get_weather_raises_no_request_exception
                   (refuse connection_refused) (WeatherAPI.__init__ "") "Goa"
                   (selected "Goa") _ _ _)).
  reflexivity.
Defined.

Lemma undecodable_body_is_wrapped_and_reported_witness :
  (String.eqb (city_name (selected "Goa")) "" = false ∧
   @requests_get garbled []
     "https://api.openweathermap.org/data/2.5/weather?q=Goa&appid=" =
     Return (mk_response (Return tt) (Raise not_json)) ∧
   raise_for_status (mk_response (Return tt) (Raise not_json)) = Return tt ∧
   json (mk_response (Return tt) (Raise not_json)) = Raise not_json ∧
   isinstance not_json RequestException = true) ∧
  @WeatherApp.__fetch_weather garbled sample_format WeatherApp.__init__
    (selected "Goa") =
    (Return tt,
     mk_world "Goa" WeatherDisplay.__init__
       ["Error: Failed to fetch weather data: Expecting value: line 1 column 1 (char 0)"]
       ["https://api.openweathermap.org/data/2.5/weather?q=Goa&appid="]).
Proof.
  split; [repeat split |].
  refine (proj2 (@undecodable_body_is_wrapped_and_reported garbled
                   sample_format WeatherApp.__init__ (selected "Goa")
                   (mk_response (Return tt) (Raise not_json)) not_json
                   _ _ _ _ _)); reflexivity.
Defined.

Lemma foreign_errors_pass_unwrapped_witness :
  (String.eqb (city_name (selected "Goa")) "" = false ∧
   @http_outcome (refuse bad_value) []
     "https://api.openweathermap.org/data/2.5/weather?q=Goa&appid=" =
     Raise bad_value ∧
   isinstance bad_value RequestException = false) ∧
  @WeatherApp.__fetch_weather (refuse bad_value) sample_format
    WeatherApp.__init__ (selected "Goa") =
    (Return tt,
     mk_world "Goa" WeatherDisplay.__init__ ["Error: Invalid header value"]
       ["https://api.openweathermap.org/data/2.5/weather?q=Goa&appid="]).
Proof.
  split; [repeat split |].
  refine (proj2 (@foreign_errors_pass_unwrapped (refuse bad_value)
                   sample_format WeatherApp.__init__ (selected "Goa")
                   bad_value _ _ _)); reflexivity.
Defined.


Lemma second_run_repeats_the_first_witness :
  stateless (refuse connection_refused) ∧
  stdout (snd (@WeatherApp.__fetch_weather (refuse connection_refused)
                 sample_format WeatherApp.__init__
                 (snd (@WeatherApp.__fetch_weather (refuse connection_refused)
                         sample_format WeatherApp.__init__
                         (selected "Goa"))))) =
    ["Error: Failed to fetch weather data: Connection refused";
     "Error: Failed to fetch weather data: Connection refused"] ∧
  fst (@WeatherApp.__fetch_weather (refuse connection_refused)
         sample_format WeatherApp.__init__
         (snd (@WeatherApp.__fetch_weather (refuse connection_refused)
                 sample_format WeatherApp.__init__ (selected "Goa")))) =
    Return tt.
Proof.
  split; [intros log log' url; reflexivity |].
  split; [reflexivity |].
  rewrite (proj1 (@second_run_repeats_the_first (refuse connection_refused)
                    sample_format WeatherApp.__init__ (selected "Goa")
                    (fun log log' url => eq_refl))).
  reflexivity.
Defined.

(** * Properties of the window *)

Lemma apart_sym (a b : Widget) : apart a b = apart b a.
Proof.
  unfold apart.
  destruct (x a + width a <=? x b), (x b + width b <=? x a),
    (y a + height a <=? y b), (y b + height b <=? y a); reflexivity.
Qed.

Lemma pairwise_apart_sound (l : list Widget) :
  pairwise_apart l = true →
  ∀ i j a b, (i < j)%nat → l !! i = Some a → l !! j = Some b →
             apart a b = true.
Proof.
  induction l as [| c l IH]; intros Hl i j a b Hij Ha Hb.
  - rewrite lookup_nil in Ha. discriminate.
  - simpl in Hl. apply andb_true_iff in Hl as (Hc & Hl).
    destruct j as [| j]; [lia |].
    destruct i as [| i]; simpl in Ha, Hb.
    + injection Ha as <-.
      rewrite forallb_forall in Hc. apply Hc.
      apply list_elem_of_In, list_elem_of_lookup. eauto.
    + apply (IH Hl i j); [lia | assumption | assumption].
Qed.

(** X13: the thirteen widgets the constructor places (title, dropdown,
    button and the ten labels) all lie inside the 500 by 600 window, and no
    two of them overlap; each value label starts empty and stands on the row
    of its caption, to the right of it. *)
Theorem widgets_fit_and_keep_apart :
  (∀ a, a ∈ WeatherApp.__create_widgets →
        inside (WeatherApp.window_width WeatherApp.__setup_window)
               (WeatherApp.window_height WeatherApp.__setup_window) a = true) ∧
  (∀ i j a b, WeatherApp.__create_widgets !! i = Some a →
              WeatherApp.__create_widgets !! j = Some b →
              i ≠ j → apart a b = true) ∧
  (∀ k caption value,
      WeatherDisplay.__create_labels !! (2 * k)%nat = Some caption →
      WeatherDisplay.__create_labels !! (2 * k + 1)%nat = Some value →
      text value = "" ∧ text caption ≠ "" ∧
      y value = y caption ∧ height value = height caption ∧
      x caption + width caption <= x value).
Proof.
  split; [| split]; cycle 2.
  { intros k caption value Hc Hv.
    do 5 (destruct k as [| k];
          [ vm_compute in Hc, Hv; injection Hc as <-; injection Hv as <-;
            repeat split; simpl; first [reflexivity | discriminate | lia] |]).
    apply lookup_lt_Some in Hc. simpl in Hc. lia. }
  - intros a Ha. apply list_elem_of_In in Ha. revert a Ha.
    apply forallb_forall. reflexivity.
  - assert (Hall : pairwise_apart WeatherApp.__create_widgets = true)
      by reflexivity.
    intros i j a b Ha Hb Hij.
    destruct (Nat.lt_total i j) as [Hlt | [Heq | Hgt]].
    + exact (pairwise_apart_sound _ Hall i j a b Hlt Ha Hb).
    + contradiction.
    + rewrite apart_sym.
      exact (pairwise_apart_sound _ Hall j i b a Hgt Hb Ha).
Qed.

Lemma offered_names_are_not_empty (city : string) :
  city ∈ WeatherApp.INDIAN_STATES → String.eqb city "" = false.
Proof.
  revert city. apply Forall_forall.
  unfold WeatherApp.INDIAN_STATES. repeat constructor.
Qed.

(** X14: the dropdown offers 36 names, all different, and none of them is
    empty: with any offered name selected, the callback of the application
    makes exactly one request, whose URL carries the name as it is. *)
Theorem offered_names_reach_the_network {R : Requests} {F : Format}
    (w : World) :
  city_name w ∈ WeatherApp.INDIAN_STATES →
  requests_log (snd (WeatherApp.__fetch_weather WeatherApp.__init__ w)) =
    (requests_log w ++
     ["https://api.openweathermap.org/data/2.5/weather?q=" +:+ city_name w
      +:+ "&appid="])%list ∧
  values WeatherApp.__create_dropdown = WeatherApp.INDIAN_STATES ∧
  length WeatherApp.INDIAN_STATES = 36%nat ∧
  NoDup WeatherApp.INDIAN_STATES.
Proof.
  intros Hcity. apply offered_names_are_not_empty in Hcity.
  split; [| split; [reflexivity | split; [reflexivity |]]].
  - destruct (callback_frame WeatherApp.__init__ w) as (_ & Hlog).
    rewrite Hlog, Hcity. reflexivity.
  - apply (bool_decide_unpack _). vm_compute. exact I.
Qed.

Lemma offered_names_reach_the_network_witness :
  city_name (selected "Tamil Nadu") ∈ WeatherApp.INDIAN_STATES ∧
  requests_log (snd (@WeatherApp.__fetch_weather (serve clouds_payload)
                       sample_format WeatherApp.__init__
                       (selected "Tamil Nadu"))) =
    ["https://api.openweathermap.org/data/2.5/weather?q=Tamil Nadu&appid="].
Proof.
  split; [apply (bool_decide_unpack _); vm_compute; exact I |].
  refine (proj1 (@offered_names_reach_the_network (serve clouds_payload)
                   sample_format (selected "Tamil Nadu") _)).
  apply (bool_decide_unpack _). vm_compute. exact I.
Defined.
